(** * A minimal object system: cookies and cookie cutters

    Shallow embedding of the last three code cells of [TowardsOO.ipynb]:
    the [cookie] class (an instance: one cutter plus a dictionary of
    values), the [CookieCutter] class with a list of helpers (the
    descriptor with ordered delegates) and the parametric variant in which
    the helpers are a dictionary indexed by a mood.

    Python dictionaries with string keys are [gmap string _]; the mutable
    [_values] dictionary of a cookie is threaded as explicit state, and a
    Python exception is an outcome that keeps the state reached so far. *)

From Stdlib Require Import Ascii String.
From stdpp Require Import gmap strings list pretty.

Open Scope string_scope.

(** ** Strings: [startswith], slicing and [lower] *)

(** [s.startswith(p)] *)
Fixpoint startswith (s p : string) {struct p} : bool :=
  match p with
  | EmptyString => true
  | String a p' =>
      match s with
      | EmptyString => false
      | String b s' => if Ascii.eqb a b then startswith s' p' else false
      end
  end.

(** [s[n:]] *)
Fixpoint slice_from (n : nat) (s : string) : string :=
  match n with
  | 0 => s
  | S n' =>
      match s with
      | EmptyString => EmptyString
      | String _ s' => slice_from n' s'
      end
  end.

(** Case mapping on the ASCII letters; every other character is left as it
    is.  Operation and property names are taken to be ASCII text, as they
    are in the notebook: on a string for which [isascii] holds, [lower] and
    [capitalize] below are Python's [str.lower] and [str.capitalize]; on
    other strings Python's Unicode case mapping is not modelled, and a
    property that depends on what the two functions return is stated for
    ASCII strings only. *)
Definition is_upper (c : ascii) : bool :=
  let n := nat_of_ascii c in (65 <=? n)%nat && (n <=? 90)%nat.

Definition is_lower (c : ascii) : bool :=
  let n := nat_of_ascii c in (97 <=? n)%nat && (n <=? 122)%nat.

Definition lower_ascii (c : ascii) : ascii :=
  if is_upper c then ascii_of_nat (nat_of_ascii c + 32) else c.

Definition upper_ascii (c : ascii) : ascii :=
  if is_lower c then ascii_of_nat (nat_of_ascii c - 32) else c.

(** [s.lower()] *)
Fixpoint lower (s : string) : string :=
  match s with
  | EmptyString => EmptyString
  | String c s' => String (lower_ascii c) (lower s')
  end.

(** [s.capitalize()]: first character upper-cased, the rest lower-cased. *)
Definition capitalize (s : string) : string :=
  match s with
  | EmptyString => EmptyString
  | String c s' => String (upper_ascii c) (lower s')
  end.

(** [s.isascii()]: every character is below 128 (true of the empty
    string). *)
Fixpoint isascii (s : string) : bool :=
  match s with
  | EmptyString => true
  | String c s' => (nat_of_ascii c <? 128)%nat && isascii s'
  end.

(** ** Values, exceptions and the state of a cookie *)

(** The dynamically typed values stored in a cookie and passed around. *)
Inductive value : Type :=
| VNone
| VBool (b : bool)
| VInt (z : Z)
| VStr (s : string).

(** The Python exceptions the three cells can raise.  The notebook has no
    exception classes of its own: a missing property and a missing mood
    are both the [KeyError] of a dictionary lookup, and a missing
    operation is [Exception("no such operation", op)]. *)
Inductive exn : Type :=
| KeyError (key : string)
| IndexError
| TypeError
| NoSuchOperation (op : string)
| OtherError (msg : string).

Inductive outcome (A : Type) : Type :=
| Ok (a : A)
| Raise (e : exn)
| OutOfFuel.
Arguments Ok {A} a.
Arguments Raise {A} e.
Arguments OutOfFuel {A}.

(** A computation reads and writes the [_values] dictionary of the cookie
    at hand; the dictionary it leaves is returned whatever the outcome. *)
Definition M (A : Type) : Type :=
  gmap string value -> outcome A * gmap string value.

Definition ret {A} (a : A) : M A := fun s => (Ok a, s).

Definition raise {A} (e : exn) : M A := fun s => (Raise e, s).

Definition out_of_fuel {A} : M A := fun s => (OutOfFuel, s).

Definition bind {A B} (m : M A) (k : A -> M B) : M B :=
  fun s =>
    match m s with
    | (Ok a, s') => k a s'
    | (Raise e, s') => (Raise e, s')
    | (OutOfFuel, s') => (OutOfFuel, s')
    end.

Notation "x <- m ;; k" := (bind m (fun x => k))
  (at level 100, m at next level, right associativity).

(** [try: return m / except: pass], followed by [k]: a bare [except]
    catches every exception. *)
Definition try_return_else {A} (m k : M A) : M A :=
  fun s =>
    match m s with
    | (Raise _, s') => k s'
    | r => r
    end.

(** [self._values[key]] *)
Definition getitem (key : string) : M value :=
  fun s =>
    match s !! key with
    | Some v => (Ok v, s)
    | None => (Raise (KeyError key), s)
    end.

(** [self._values[key] = v] *)
Definition setitem (key : string) (v : value) : M value :=
  fun s => (Ok VNone, <[key := v]> s).

(** [v == "..."] for a string literal on the right. *)
Definition eq_str (v : value) (t : string) : bool :=
  match v with
  | VStr s => String.eqb s t
  | _ => false
  end.

(** [str(v)], as an f-string formats a value. *)
Definition str_of_value (v : value) : string :=
  match v with
  | VNone => "None"
  | VBool true => "True"
  | VBool false => "False"
  | VInt z => pretty z
  | VStr s => s
  end.

(** ** Cookies and cutters with a list of helpers

    [class cookie] and the [class CookieCutter] of the inheritance cell.

    An operation is a Python callable [f(cookie, *args)].  What it can do
    with the cookie it is handed is call [cookie.do(...)], format it with
    [str(cookie)], and read or write its values; the first two are the
    fields of the handle below, the third is the state of [M]. *)
Module Inheritance.

Record cookie_handle : Type := mkHandle {
  handle_do : string -> list value -> M value;
  handle_str : string
}.

Abbreviation callable := (cookie_handle -> list value -> M value).

(** [class CookieCutter] of the inheritance cell: a name, the operations
    and the list of helpers. *)
#[local] Unset Elimination Schemes.
Inductive CookieCutter : Type :=
  mkCookieCutter (name : string) (operations : gmap string callable)
                 (helpers : list CookieCutter).
#[local] Set Elimination Schemes.

Definition _name (self : CookieCutter) : string :=
  match self with mkCookieCutter n _ _ => n end.

Definition _operations (self : CookieCutter) : gmap string callable :=
  match self with mkCookieCutter _ ops _ => ops end.

Definition _helpers (self : CookieCutter) : list CookieCutter :=
  match self with mkCookieCutter _ _ hs => hs end.

(** Induction over a cutter and the cutters below it. *)
Fixpoint CookieCutter_ind (P : CookieCutter -> Prop)
    (step : forall name operations helpers,
        Forall P helpers -> P (mkCookieCutter name operations helpers))
    (self : CookieCutter) {struct self} : P self :=
  match self with
  | mkCookieCutter name operations helpers =>
      step name operations helpers
        ((fix all (hs : list CookieCutter) : Forall P hs :=
            match hs with
            | [] => @List.Forall_nil _ P
            | h :: rest =>
                @List.Forall_cons _ P h rest (CookieCutter_ind P step h)
                                  (all rest)
            end) helpers)
  end.

(** [CookieCutter.printCookie] *)
Definition printCookie (self : CookieCutter) : string :=
  _name self ++ " cookie".

(** [CookieCutter.__str__] *)
Definition CookieCutter_str (self : CookieCutter) : string :=
  _name self ++ " cutter".

(** [CookieCutter.do(self, cookie, op, *args)] *)
Fixpoint CookieCutter_do (self : CookieCutter) (cookie : cookie_handle)
    (op : string) (args : list value) {struct self} : M value :=
  match self with
  | mkCookieCutter _ operations helpers =>
      match operations !! op with
      | None =>
          (fix for_helper (hs : list CookieCutter) : M value :=
             match hs with
             | [] => raise (NoSuchOperation op)
             | helper :: rest =>
                 try_return_else (CookieCutter_do helper cookie op args)
                                 (for_helper rest)
             end) helpers
      | Some f => f cookie args
      end
  end.

(** The [for helper in self._helpers] loop of [CookieCutter.do] with the
    [raise] that follows it, as a function of the helpers still to try. *)
Fixpoint for_helpers (hs : list CookieCutter) (cookie : cookie_handle)
    (op : string) (args : list value) : M value :=
  match hs with
  | [] => raise (NoSuchOperation op)
  | helper :: rest =>
      try_return_else (CookieCutter_do helper cookie op args)
                      (for_helpers rest cookie op args)
  end.

(** [cookie.do(self, op, *args)], for the cookie whose cutter is [cutter]
    and whose [_values] are the state.  [fuel] bounds how deeply operations
    call back into [cookie.do]. *)
Fixpoint cookie_do (fuel : nat) (cutter : CookieCutter) (op : string)
    (args : list value) : M value :=
  if startswith op "set" then
    match args with
    | [] => raise IndexError
    | a :: _ => setitem (lower (slice_from 3 op)) a
    end
  else if startswith op "get" then
    getitem (lower (slice_from 3 op))
  else
    match fuel with
    | 0 => out_of_fuel
    | S fuel' =>
        CookieCutter_do cutter
          {| handle_do := cookie_do fuel' cutter;
             handle_str := printCookie cutter |} op []
    end.

(** The cookie as operations see it. *)
Definition handle (fuel : nat) (cutter : CookieCutter) : cookie_handle :=
  {| handle_do := cookie_do fuel cutter; handle_str := printCookie cutter |}.

(** [class cookie]: a cutter and the values. *)
Record cookie : Type := mkCookie {
  _cutter : CookieCutter;
  _values : gmap string value
}.

(** [CookieCutter.newCookie] *)
Definition newCookie (self : CookieCutter) (attr : gmap string value) : cookie :=
  {| _cutter := self; _values := attr |}.

(** [cookie.__str__] *)
Definition cookie_str (self : cookie) : string := printCookie (_cutter self).

(** One call [self.do(op, *args)] on a cookie: the outcome and the cookie
    afterwards. *)
Definition do (fuel : nat) (self : cookie) (op : string) (args : list value)
  : outcome value * cookie :=
  let (r, s') := cookie_do fuel (_cutter self) op args (_values self) in
  (r, {| _cutter := _cutter self; _values := s' |}).

(** *** The cutters of the notebook *)

(** [def bake_macadamia(cookie)] *)
Definition bake_macadamia : callable := fun cookie args =>
  match args with
  | [] =>
      color <- handle_do cookie "getColor" [] ;;
      if eq_str color "white" then ret (VStr "30") else ret (VStr "100")
  | _ :: _ => raise TypeError
  end.

(** [def contemplate(cookie)] *)
Definition contemplate : callable := fun cookie args =>
  match args with
  | [] =>
      baked <- handle_do cookie "bake" [] ;;
      ret (VStr ("I am looking at a delicious " ++ handle_str cookie
                 ++ ", baked at " ++ str_of_value baked
                 ++ ". Temptation is strong."))
  | _ :: _ => raise TypeError
  end.

Definition nutsCookieCutter : CookieCutter :=
  mkCookieCutter "NutsCookie" {[ "contemplate" := contemplate ]} [].

Definition macadamiaCookieCutter : CookieCutter :=
  mkCookieCutter "MacadamiaCookie" {[ "bake" := bake_macadamia ]}
                 [nutsCookieCutter].

Definition noonCookie : cookie :=
  newCookie macadamiaCookieCutter {[ "color" := VStr "white" ]}.

Definition midnightCookie : cookie :=
  newCookie macadamiaCookieCutter {[ "color" := VStr "dark" ]}.

(** *** Resolution by the tables alone *)

(** [op] is in the operations of [self] or of a helper, at any depth. *)
Fixpoint resolvable (self : CookieCutter) (op : string) : bool :=
  match self with
  | mkCookieCutter _ operations helpers =>
      match operations !! op with
      | Some _ => true
      | None =>
          (fix any (hs : list CookieCutter) : bool :=
             match hs with
             | [] => false
             | helper :: rest => resolvable helper op || any rest
             end) helpers
      end
  end.

Fixpoint any_resolvable (hs : list CookieCutter) (op : string) : bool :=
  match hs with
  | [] => false
  | helper :: rest => resolvable helper op || any_resolvable rest op
  end.

(** *** Cutters used to exercise the dispatch *)

(** [def weigh(cookie): return cookie.do("getWeight")] *)
Definition weigh : callable := fun cookie args =>
  match args with
  | [] => handle_do cookie "getWeight" []
  | _ :: _ => raise TypeError
  end.

(** [def plain(cookie): return "plain"] *)
Definition plain : callable := fun cookie args =>
  match args with
  | [] => ret (VStr "plain")
  | _ :: _ => raise TypeError
  end.

(** [def greet(cookie, who="nobody"): return who] *)
Definition greet : callable := fun cookie args =>
  match args with
  | [] => ret (VStr "nobody")
  | [who] => ret who
  | _ :: _ :: _ => raise TypeError
  end.

Definition cutterA : CookieCutter := mkCookieCutter "A" {[ "x" := weigh ]} [].

Definition cutterB : CookieCutter := mkCookieCutter "B" {[ "x" := plain ]} [].

Definition cutterD : CookieCutter := mkCookieCutter "D" ∅ [cutterA; cutterB].

Definition cutterE : CookieCutter := mkCookieCutter "E" ∅ [cutterB; cutterA].

Definition greeterCutter : CookieCutter :=
  mkCookieCutter "Greeter" {[ "greet" := greet; "getX" := plain ]} [].

End Inheritance.

(** ** Parametric dispatch

    The last cell: [cookie.do] takes a mood after the operation name, and
    the helpers of a cutter are a dictionary from moods to cutters (the
    leaf cutters of the notebook are still given the list [[]]). *)
Module Parametric.

Record cookie_handle : Type := mkHandle {
  handle_do : string -> string -> list value -> M value;
  handle_str : string
}.

Abbreviation callable := (cookie_handle -> list value -> M value).

(** What [_helpers] holds: a list, or a dictionary keyed by mood.  The
    dictionary is kept as its items, the first item with a given key being
    the binding of that key, so that the dispatch can descend into it
    structurally. *)
Inductive helpers_of (C : Type) : Type :=
| HelpersList (l : list C)
| HelpersDict (d : list (string * C)).
Arguments HelpersList {C} l.
Arguments HelpersDict {C} d.

#[local] Unset Elimination Schemes.
Inductive CookieCutter : Type :=
  mkCookieCutter (name : string) (operations : gmap string callable)
                 (helpers : helpers_of CookieCutter).
#[local] Set Elimination Schemes.

Definition _name (self : CookieCutter) : string :=
  match self with mkCookieCutter n _ _ => n end.

Definition _operations (self : CookieCutter) : gmap string callable :=
  match self with mkCookieCutter _ ops _ => ops end.

Definition _helpers (self : CookieCutter) : helpers_of CookieCutter :=
  match self with mkCookieCutter _ _ hs => hs end.

(** [d.get(mood)] on the items of a dictionary. *)
Fixpoint dict_get {C : Type} (d : list (string * C)) (mood : string) : option C :=
  match d with
  | [] => None
  | (k, h) :: d' => if String.eqb k mood then Some h else dict_get d' mood
  end.

(** [CookieCutter.printCookie] *)
Definition printCookie (self : CookieCutter) : string :=
  _name self ++ " cookie".

(** [CookieCutter.do(self, cookie, mood, op, *args)] *)
Fixpoint CookieCutter_do (self : CookieCutter) (cookie : cookie_handle)
    (mood op : string) (args : list value) {struct self} : M value :=
  match self with
  | mkCookieCutter _ operations helpers =>
      match operations !! op with
      | None =>
          match helpers with
          | HelpersList _ => raise TypeError
          | HelpersDict d =>
              (fix getitem_do (d : list (string * CookieCutter)) : M value :=
                 match d with
                 | [] => raise (KeyError mood)
                 | (k, helper) :: d' =>
                     if String.eqb k mood
                     then CookieCutter_do helper cookie mood op args
                     else getitem_do d'
                 end) d
          end
      | Some f => f cookie args
      end
  end.

(** [cookie.do(self, op, mood, *args)] *)
Fixpoint cookie_do (fuel : nat) (cutter : CookieCutter) (op mood : string)
    (args : list value) : M value :=
  if startswith op "set" then
    match args with
    | [] => raise IndexError
    | a :: _ => setitem (lower (slice_from 3 op)) a
    end
  else if startswith op "get" then
    getitem (lower (slice_from 3 op))
  else
    match fuel with
    | 0 => out_of_fuel
    | S fuel' =>
        CookieCutter_do cutter
          {| handle_do := cookie_do fuel' cutter;
             handle_str := printCookie cutter |} mood op []
    end.

Definition handle (fuel : nat) (cutter : CookieCutter) : cookie_handle :=
  {| handle_do := cookie_do fuel cutter; handle_str := printCookie cutter |}.

Record cookie : Type := mkCookie {
  _cutter : CookieCutter;
  _values : gmap string value
}.

(** [CookieCutter.newCookie] *)
Definition newCookie (self : CookieCutter) (attr : gmap string value) : cookie :=
  {| _cutter := self; _values := attr |}.

Definition do (fuel : nat) (self : cookie) (op mood : string)
    (args : list value) : outcome value * cookie :=
  let (r, s') := cookie_do fuel (_cutter self) op mood args (_values self) in
  (r, {| _cutter := _cutter self; _values := s' |}).

(** *** The cutters of the notebook *)

(** [def contemplate(cookie)] *)
Definition contemplate : callable := fun cookie args =>
  match args with
  | [] =>
      ret (VStr ("I am looking at a delicious " ++ handle_str cookie
                 ++ ". Temptation is strong."))
  | _ :: _ => raise TypeError
  end.

(** [def succumb(cookie)] *)
Definition succumb : callable := fun cookie args =>
  match args with
  | [] =>
      ret (VStr ("I was looking at a delicious " ++ handle_str cookie
                 ++ ". Temptation was too strong."))
  | _ :: _ => raise TypeError
  end.

Definition beachbodyNutsCookieCutter : CookieCutter :=
  mkCookieCutter "NutsCookie" {[ "contemplate" := contemplate ]} (HelpersList []).

Definition honestNutsCookieCutter : CookieCutter :=
  mkCookieCutter "NutsCookie" {[ "contemplate" := succumb ]} (HelpersList []).

Definition macadamiaCookieCutter : CookieCutter :=
  mkCookieCutter "MacadamiaCookie" ∅
    (HelpersDict [("beachbody", beachbodyNutsCookieCutter);
                  ("honest", honestNutsCookieCutter)]).

Definition noonCookie : cookie :=
  newCookie macadamiaCookieCutter {[ "color" := VStr "white" ]}.

End Parametric.

(** ** The order in which operations are tried

    The operations a dispatch can reach, listed in the order in which
    [CookieCutter.do] would try them, and the loop over such a list. *)
Module Resolution.
Import Inheritance.

(** The operations named [op] that a [try] around [self.do] can reach:
    the cutter's own one if it has one, otherwise those of its helpers,
    each helper in full before the next. *)
Fixpoint candidates (self : CookieCutter) (op : string) : list callable :=
  match self with
  | mkCookieCutter _ operations helpers =>
      match operations !! op with
      | Some f => [f]
      | None =>
          (fix of_helpers (hs : list CookieCutter) : list callable :=
             match hs with
             | [] => []
             | helper :: rest => (candidates helper op ++ of_helpers rest)%list
             end) helpers
      end
  end.

Fixpoint helper_candidates (hs : list CookieCutter) (op : string)
  : list callable :=
  match hs with
  | [] => []
  | helper :: rest => (candidates helper op ++ helper_candidates rest op)%list
  end.

(** Try the operations one after the other: the first that returns ends
    the loop, an exception moves on to the next, and running out of them
    is "no such operation". *)
Fixpoint first_success (fs : list callable) (cookie : cookie_handle)
    (op : string) (args : list value) : M value :=
  match fs with
  | [] => raise (NoSuchOperation op)
  | f :: rest =>
      try_return_else (f cookie args) (first_success rest cookie op args)
  end.

End Resolution.

(** ** Cookies that share their dictionary

    [newCookie(attr)] keeps the dictionary it is given, it does not copy
    it.  Dictionaries live at addresses; a cookie holds the address of its
    [_values]. *)
Module Sharing.
Import Inheritance.

Record cookie_at : Type := mkCookieAt {
  at_cutter : CookieCutter;
  at_values : nat
}.

(** [CookieCutter.newCookie(attr)], [attr] being the dictionary at that
    address. *)
Definition newCookie_at (self : CookieCutter) (attr : nat) : cookie_at :=
  {| at_cutter := self; at_values := attr |}.

(** [self.do(op, *args)] on the dictionaries [dicts]; [None] when the
    address holds no dictionary, which no Python reference does. *)
Definition do_at (fuel : nat) (self : cookie_at) (op : string)
    (args : list value) (dicts : gmap nat (gmap string value))
  : option (outcome value * gmap nat (gmap string value)) :=
  match dicts !! at_values self with
  | None => None
  | Some s =>
      let (r, s') := cookie_do fuel (at_cutter self) op args s in
      Some (r, <[at_values self := s']> dicts)
  end.

End Sharing.

(** ** Which operation a mood leads to *)
Module MoodResolution.
Import Parametric.

(** Induction over a parametric cutter: nothing is assumed of the cutters
    in a list of helpers, the property of every cutter in a dictionary of
    helpers. *)
Fixpoint CookieCutter_ind (P : CookieCutter -> Prop)
    (list_step : forall name operations l,
        P (mkCookieCutter name operations (HelpersList l)))
    (dict_step : forall name operations d,
        Forall (fun kh : string * CookieCutter => P (snd kh)) d ->
        P (mkCookieCutter name operations (HelpersDict d)))
    (self : CookieCutter) {struct self} : P self :=
  match self with
  | mkCookieCutter name operations (HelpersList l) =>
      list_step name operations l
  | mkCookieCutter name operations (HelpersDict d) =>
      dict_step name operations d
        ((fix all (d : list (string * CookieCutter))
            : Forall (fun kh : string * CookieCutter => P (snd kh)) d :=
            match d with
            | [] => @List.Forall_nil _ _
            | (k, h) :: d' =>
                @List.Forall_cons _ (fun kh : string * CookieCutter => P (snd kh))
                  (k, h) d' (CookieCutter_ind P list_step dict_step h) (all d')
            end) d)
  end.

(** The lookups of [CookieCutter.do] without the call at their end: the
    operation the dispatch would run, or the exception it would raise
    before running any. *)
Fixpoint resolve (self : CookieCutter) (mood op : string)
    {struct self} : callable + exn :=
  match self with
  | mkCookieCutter _ operations helpers =>
      match operations !! op with
      | Some f => inl f
      | None =>
          match helpers with
          | HelpersList _ => inr TypeError
          | HelpersDict d =>
              (fix getitem_resolve (d : list (string * CookieCutter))
                 : callable + exn :=
                 match d with
                 | [] => inr (KeyError mood)
                 | (k, helper) :: d' =>
                     if String.eqb k mood
                     then resolve helper mood op
                     else getitem_resolve d'
                 end) d
          end
      end
  end.

End MoodResolution.

(** ** The cookies before the cutters

    [class Cookie2], whose operations are its own and take the cookie as
    first argument, and the first [class CookieCutter], without helpers. *)
Module Earlier.
Import Inheritance.

(** [Cookie2.do(self, op, *args)] for the cookie with that name and those
    operations, the [_values] being the state.  [str(self)] is the name. *)
Fixpoint Cookie2_do (fuel : nat) (name : string)
    (operations : gmap string callable) (op : string) (args : list value)
  : M value :=
  if startswith op "set" then
    match args with
    | [] => raise IndexError
    | a :: _ => setitem (lower (slice_from 3 op)) a
    end
  else if startswith op "get" then
    getitem (lower (slice_from 3 op))
  else
    match operations !! op with
    | None => raise (NoSuchOperation op)
    | Some f =>
        match fuel with
        | 0 => out_of_fuel
        | S fuel' =>
            f {| handle_do := Cookie2_do fuel' name operations;
                 handle_str := name |} args
        end
    end.

Definition Cookie2_handle (fuel : nat) (name : string)
    (operations : gmap string callable) : cookie_handle :=
  {| handle_do := Cookie2_do fuel name operations; handle_str := name |}.

(** [s * n] on strings *)
Fixpoint repeat_string (s : string) (n : nat) : string :=
  match n with
  | 0 => ""
  | S n' => s ++ repeat_string s n'
  end.

(** [str(v * 12)]: a product for integers and booleans, a repetition for
    strings, a [TypeError] for [None].  The weights of the notebook are
    floats, which [value] does not have. *)
Definition str_times_12 (v : value) : M string :=
  match v with
  | VNone => raise TypeError
  | VBool b => ret (pretty (if b then 12 else 0)%Z)
  | VInt z => ret (pretty (z * 12)%Z)
  | VStr s => ret (repeat_string s 12)
  end.

(** [def bake_nuts(self)] *)
Definition bake_nuts : callable := fun self args =>
  match args with
  | [] =>
      weight <- handle_do self "getWeight" [] ;;
      minutes <- str_times_12 weight ;;
      ret (VStr ("baking " ++ minutes ++ " minutes"))
  | _ :: _ => raise TypeError
  end.

(** The first [CookieCutter.do(self, cookie, op, *args)]: no helpers. *)
Definition CookieCutter_do (operations : gmap string callable)
    (cookie : cookie_handle) (op : string) (args : list value) : M value :=
  match operations !! op with
  | None => raise (NoSuchOperation op)
  | Some f => f cookie args
  end.

(** The first [CookieCutter.printCookie] *)
Definition printCookie (name : string) : string :=
  "I am a " ++ name ++ " cookie".

End Earlier.

(** ** [MagicDict]: a dictionary read and written as attributes

    The object is its one attribute [_d].  What [_d] and the entries of a
    dictionary can hold here: a plain value or a dictionary. *)
Module MagicDict.

#[local] Unset Elimination Schemes.
Inductive obj : Type :=
| OValue (v : value)
| ODict (d : gmap string obj).
#[local] Set Elimination Schemes.

(** The exceptions of the class: [Exception("No such key " + attr)] is
    [NoSuchKey attr]. *)
Inductive error : Type :=
| KeyError (key : string)
| AttributeError
| TypeError
| NoSuchKey (attr : string).

Inductive result (A : Type) : Type :=
| Returned (a : A)
| Raised (e : error).
Arguments Returned {A} a.
Arguments Raised {A} e.

(** [sub in s] on strings *)
Fixpoint contains (s sub : string) : bool :=
  startswith s sub ||
  match s with
  | EmptyString => false
  | String _ s' => contains s' sub
  end.

(** [MagicDict.__init__(self, d)] *)
Definition MagicDict_init (d : obj) : obj := d.

(** [MagicDict.__getattr__(self, attr)]: [super()] has no [__getattr__],
    so the branch for ["_d"] raises [AttributeError]; indexing anything
    but a dictionary with a string is a [TypeError]. *)
Definition MagicDict_getattr (_d : obj) (attr : string) : result obj :=
  if String.eqb attr "_d" then Raised AttributeError
  else
    match _d with
    | ODict d =>
        match d !! attr with
        | Some v => Returned v
        | None => Raised (KeyError attr)
        end
    | OValue _ => Raised TypeError
    end.

(** [MagicDict.__setattr__(self, attr, value)]: the outcome and [_d]
    afterwards.  On a string [attr not in self._d] is a substring test and
    the assignment that follows a [TypeError]; on the other plain values
    the test itself is a [TypeError]. *)
Definition MagicDict_setattr (_d : obj) (attr : string) (value : obj)
  : result unit * obj :=
  if String.eqb attr "_d" then (Returned tt, value)
  else
    match _d with
    | ODict d =>
        match d !! attr with
        | None => (Raised (NoSuchKey attr), _d)
        | Some _ => (Returned tt, ODict (<[attr := value]> d))
        end
    | OValue (VStr s) =>
        if contains s attr then (Raised TypeError, _d)
        else (Raised (NoSuchKey attr), _d)
    | OValue _ => (Raised TypeError, _d)
    end.

End MagicDict.

(** ** [Counter] and [Gauge]: closures behind a [MagicDict]

    The nested functions share the variable [count] of the call that made
    them; the [MagicDict] returned maps their names to them. *)
Module Closures.
Import MagicDict.

(** A nested function: called with arguments, it reads and writes
    [count]. *)
Abbreviation closure := (list value -> Z -> result value * Z).

(** [def inc()] *)
Definition inc : closure := fun args count =>
  match args with
  | [] => (Returned VNone, (count + 1)%Z)
  | _ :: _ => (Raised TypeError, count)
  end.

(** [def decr()] *)
Definition decr : closure := fun args count =>
  match args with
  | [] => (Returned VNone, if (0 <? count)%Z then (count - 1)%Z else count)
  | _ :: _ => (Raised TypeError, count)
  end.

(** [def pcount()] *)
Definition pcount : closure := fun args count =>
  match args with
  | [] => (Returned (VInt count), count)
  | _ :: _ => (Raised TypeError, count)
  end.

(** What [Counter()] or [Gauge()] returns: the dictionary of the
    [MagicDict] and the variable the closures in it share. *)
Record instance : Type := mkInstance {
  _d : gmap string closure;
  count : Z
}.

(** [def Counter()] *)
Definition Counter : instance :=
  {| _d := {[ "inc" := inc; "count" := pcount ]}; count := 0 |}.

(** [def Gauge()] *)
Definition Gauge : instance :=
  {| _d := {[ "inc" := inc; "count" := pcount; "decr" := decr ]};
     count := 0 |}.

(** [self.name(...)] for a name Python does not find on the object or
    its class (those all begin with two underscores, [_d] apart): the
    name goes to [MagicDict.__getattr__], that is [self._d[name]], and
    what comes back is called.  [self._d] itself is the dictionary, which
    cannot be called. *)
Definition call (self : instance) (name : string) (args : list value)
  : result value * instance :=
  if String.eqb name "_d" then (Raised TypeError, self)
  else
    match _d self !! name with
    | None => (Raised (KeyError name), self)
    | Some f =>
        match f args (count self) with
        | (r, c) => (r, {| _d := _d self; count := c |})
        end
    end.

(** [def MyServer(counter)] *)
Definition MyServer (counter : instance) : result value * instance :=
  match call counter "inc" [] with
  | (Returned _, counter') => (Returned VNone, counter')
  | (Raised e, counter') => (Raised e, counter')
  end.

(** A sequence of calls, one after the other, whatever each returns or
    raises. *)
Fixpoint calls (self : instance) (names : list (string * list value))
  : instance :=
  match names with
  | [] => self
  | (name, args) :: rest => calls (snd (call self name args)) rest
  end.

(** How many of the calls are [inc()]. *)
Fixpoint count_inc (names : list (string * list value)) : Z :=
  match names with
  | [] => 0
  | (name, args) :: rest =>
      ((if String.eqb name "inc" && (length args =? 0)%nat
        then 1 else 0) + count_inc rest)%Z
  end.

End Closures.

(** * Properties *)

(** ** Strings *)

Lemma lower_upper_ascii (c : ascii) : lower_ascii (upper_ascii c) = lower_ascii c.
Proof. destruct c as [[] [] [] [] [] [] [] []]; reflexivity. Qed.

Lemma lower_lower_ascii (c : ascii) : lower_ascii (lower_ascii c) = lower_ascii c.
Proof. destruct c as [[] [] [] [] [] [] [] []]; reflexivity. Qed.

Lemma lower_idempotent (s : string) : lower (lower s) = lower s.
Proof.
  induction s as [|c s IH]; simpl; [reflexivity|].
  now rewrite lower_lower_ascii, IH.
Qed.

Lemma lower_capitalize (s : string) : lower (capitalize s) = lower s.
Proof.
  destruct s as [|c s]; simpl; [reflexivity|].
  now rewrite lower_upper_ascii, lower_idempotent.
Qed.

Lemma startswith_get_not_set (op : string) :
  startswith op "get" = true -> startswith op "set" = false.
Proof.
  destruct op as [|c op]; cbn [startswith]; [discriminate|].
  destruct (Ascii.eqb_spec "g" c) as [<-|]; intros H; [reflexivity|discriminate H].
Qed.

Lemma startswith_app (p s : string) : startswith (p ++ s) p = true.
Proof.
  induction p as [|c p IH]; [reflexivity|].
  change (startswith (String c (p ++ s)) (String c p) = true).
  cbn [startswith]. now rewrite Ascii.eqb_refl.
Qed.

Lemma slice_from_app (p s : string) : slice_from (String.length p) (p ++ s) = s.
Proof. induction p as [|c p IH]; [reflexivity|exact IH]. Qed.

(** ** The accessors of a cookie and the dispatch with a list of helpers *)
Module InheritanceSpec.
Import Inheritance.

Lemma CookieCutter_do_eq (self : CookieCutter) cookie op args :
  CookieCutter_do self cookie op args =
  match _operations self !! op with
  | None => for_helpers (_helpers self) cookie op args
  | Some f => f cookie args
  end.
Proof.
  destruct self as [name operations helpers]; simpl.
  destruct (operations !! op); [reflexivity|].
  induction helpers as [|h rest IH]; simpl; [reflexivity|].
  now rewrite IH.
Qed.

Lemma resolvable_eq (self : CookieCutter) op :
  resolvable self op =
  match _operations self !! op with
  | Some _ => true
  | None => any_resolvable (_helpers self) op
  end.
Proof.
  destruct self as [name operations helpers]; simpl.
  destruct (operations !! op); [reflexivity|].
  induction helpers as [|h rest IH]; simpl; [reflexivity|].
  now rewrite IH.
Qed.

Lemma cookie_do_set fuel cutter op args :
  startswith op "set" = true ->
  cookie_do fuel cutter op args =
  match args with
  | [] => raise IndexError
  | a :: _ => setitem (lower (slice_from 3 op)) a
  end.
Proof. intros H. destruct fuel; cbn [cookie_do]; now rewrite H. Qed.

Lemma cookie_do_get fuel cutter op args :
  startswith op "get" = true ->
  cookie_do fuel cutter op args = getitem (lower (slice_from 3 op)).
Proof.
  intros H. pose proof (startswith_get_not_set op H) as H'.
  destruct fuel; cbn [cookie_do]; now rewrite H', H.
Qed.

Lemma cookie_do_other fuel cutter op args :
  startswith op "set" = false -> startswith op "get" = false ->
  cookie_do (S fuel) cutter op args =
  CookieCutter_do cutter (handle fuel cutter) op [].
Proof. intros Hs Hg. cbn [cookie_do]. now rewrite Hs, Hg. Qed.

(** *** Order of the helpers *)

(** C1, as stated, fails: the cutter [D] has no operation ["x"], its helpers
    are [[A; B]] and both define ["x"]; the operation of [A] raises (the
    cookie has no weight), the bare [except] discards that, and the
    dispatch returns what the operation of [B] returns. *)
Lemma first_helper_raising_counterexample :
  _operations cutterD !! "x" = None /\
  _helpers cutterD = [cutterA; cutterB] /\
  _operations cutterA !! "x" = Some weigh /\
  _operations cutterB !! "x" = Some plain /\
  weigh (handle 0 cutterD) [] ∅ = (Raise (KeyError "weight"), ∅) /\
  plain (handle 0 cutterD) [] ∅ = (Ok (VStr "plain"), ∅) /\
  CookieCutter_do cutterD (handle 0 cutterD) "x" [] ∅ = (Ok (VStr "plain"), ∅) /\
  CookieCutter_do cutterD (handle 0 cutterD) "x" [] ∅
    <> weigh (handle 0 cutterD) [] ∅ /\
  do 1 (newCookie cutterD ∅) "x" [] = (Ok (VStr "plain"), newCookie cutterD ∅).
Proof. repeat split; try reflexivity. vm_compute. discriminate. Qed.

(** C1, amended: when the cutter does not define [op], its helpers are
    [[A; B]], both define [op], and the operation of [A] returns a value
    [v], the dispatch returns [v] and leaves the values as the operation
    of [A] left them; the operation of [B] is not run. *)
Theorem first_helper_result_wins (name : string)
    (operations : gmap string callable) (A B : CookieCutter) (fa fb : callable)
    (cookie : cookie_handle) (op : string) (args : list value)
    (s : gmap string value) (v : value) (s' : gmap string value) :
  operations !! op = None ->
  _operations A !! op = Some fa ->
  _operations B !! op = Some fb ->
  fa cookie args s = (Ok v, s') ->
  CookieCutter_do (mkCookieCutter name operations [A; B]) cookie op args s
  = (Ok v, s').
Proof.
  intros Hown HA _ Hfa.
  rewrite CookieCutter_do_eq. cbn [_operations _helpers]. rewrite Hown.
  cbn [for_helpers]. unfold try_return_else at 1.
  now rewrite (CookieCutter_do_eq A), HA, Hfa.
Qed.

Lemma first_helper_result_wins_witness :
  CookieCutter_do cutterE (handle 0 cutterE) "x" [] ∅ = (Ok (VStr "plain"), ∅).
Proof.
  apply (first_helper_result_wins "E" ∅ cutterB cutterA plain weigh);
    reflexivity.
Defined.

(** *** No such operation *)

Lemma unresolvable_helpers_raise hs cookie op args s :
  Forall (fun h => resolvable h op = false ->
                   forall s, CookieCutter_do h cookie op args s
                             = (Raise (NoSuchOperation op), s)) hs ->
  any_resolvable hs op = false ->
  for_helpers hs cookie op args s = (Raise (NoSuchOperation op), s).
Proof.
  intros Hall. revert s.
  induction Hall as [|h rest Hh _ IH]; intros s Hany; [reflexivity|].
  cbn [any_resolvable] in Hany. apply orb_false_elim in Hany as [Hres Hrest].
  cbn [for_helpers]. unfold try_return_else. rewrite (Hh Hres s).
  now apply IH.
Qed.

Lemma unresolvable_dispatch (self : CookieCutter) cookie op args :
  resolvable self op = false ->
  forall s, CookieCutter_do self cookie op args s = (Raise (NoSuchOperation op), s).
Proof.
  induction self as [name operations helpers IH] using CookieCutter_ind.
  intros Hres s. rewrite resolvable_eq in Hres. rewrite CookieCutter_do_eq.
  cbn [_operations _helpers] in *.
  destruct (operations !! op); [discriminate|].
  now apply unresolvable_helpers_raise.
Qed.

(** C2: an operation that is neither in the operations of the cutter nor
    in those of any helper below it (in particular when there is no
    helper) makes the dispatch raise "no such operation" with that name,
    the values untouched; so does the call through a cookie of that cutter
    when the name is not an accessor. *)
Theorem unresolvable_raises_no_such_operation (self : CookieCutter) op :
  resolvable self op = false ->
  (forall cookie args s,
      CookieCutter_do self cookie op args s = (Raise (NoSuchOperation op), s)) /\
  (startswith op "set" = false -> startswith op "get" = false ->
   forall fuel args s,
      cookie_do (S fuel) self op args s = (Raise (NoSuchOperation op), s)).
Proof.
  intros Hres. split.
  - intros cookie args s. now apply unresolvable_dispatch.
  - intros Hs Hg fuel args s. rewrite cookie_do_other by assumption.
    now apply unresolvable_dispatch.
Qed.

Lemma unresolvable_raises_no_such_operation_witness :
  resolvable macadamiaCookieCutter "eat" = false /\
  CookieCutter_do macadamiaCookieCutter (handle 0 macadamiaCookieCutter)
                  "eat" [] {[ "color" := VStr "white" ]}
  = (Raise (NoSuchOperation "eat"), {[ "color" := VStr "white" ]}) /\
  cookie_do 1 macadamiaCookieCutter "eat" [] {[ "color" := VStr "white" ]}
  = (Raise (NoSuchOperation "eat"), {[ "color" := VStr "white" ]}).
Proof.
  assert (Hres : resolvable macadamiaCookieCutter "eat" = false)
    by reflexivity.
  destruct (unresolvable_raises_no_such_operation macadamiaCookieCutter "eat"
              Hres) as [Hcutter Hcookie].
  split; [exact Hres|]. split.
  - apply Hcutter.
  - apply Hcookie; reflexivity.
Defined.

(** *** Accessors *)

Lemma get_capitalize_key (K : string) :
  lower K = K -> lower (slice_from 3 ("get" ++ capitalize K)) = K.
Proof.
  intros HK. rewrite (slice_from_app "get"). now rewrite lower_capitalize.
Qed.

Lemma set_capitalize_key (K : string) :
  lower K = K -> lower (slice_from 3 ("set" ++ capitalize K)) = K.
Proof.
  intros HK. rewrite (slice_from_app "set"). now rewrite lower_capitalize.
Qed.

(** C3, as stated, fails for a key that is not in lower case: the cookie
    declares ["Color"], and ["getColor"] looks for ["color"]. *)
Lemma capitalised_key_counterexample :
  _values (newCookie macadamiaCookieCutter {[ "Color" := VStr "white" ]})
    !! "Color" = Some (VStr "white") /\
  "get" ++ capitalize "Color" = "getColor" /\
  do 1 (newCookie macadamiaCookieCutter {[ "Color" := VStr "white" ]})
     ("get" ++ capitalize "Color") []
  = (Raise (KeyError "color"),
     newCookie macadamiaCookieCutter {[ "Color" := VStr "white" ]}).
Proof. repeat split; reflexivity. Qed.

Lemma accessor_round_trip (fuel : nat) (cutter : CookieCutter)
    (X K : string) (V V2 : value) (more : list value)
    (s : gmap string value) :
  lower X = K ->
  s !! K = Some V ->
  cookie_do fuel cutter ("get" ++ X) [] s = (Ok V, s) /\
  cookie_do fuel cutter ("set" ++ X) (V2 :: more) s
  = (Ok VNone, <[K := V2]> s) /\
  cookie_do fuel cutter ("get" ++ X) [] (<[K := V2]> s)
  = (Ok V2, <[K := V2]> s).
Proof.
  intros HX HV.
  rewrite !cookie_do_get by apply (startswith_app "get").
  rewrite cookie_do_set by apply (startswith_app "set").
  rewrite !(slice_from_app "get"), (slice_from_app "set"), HX.
  unfold getitem, setitem. rewrite HV, lookup_insert_eq. auto.
Qed.

Lemma lower_capitalize_isascii (K : string) :
  isascii K = true -> lower K = K -> lower (capitalize K) = K.
Proof. intros _ HK. now rewrite lower_capitalize. Qed.

(** C3, amended: for a key [K] of ASCII characters that is its own
    lower-case form and that the values bind to [V],
    ["get" ++ capitalize K] returns [V]; after ["set" ++ capitalize K] with
    [V2] the same get returns [V2]. *)
Theorem get_set_round_trip (fuel : nat) (cutter : CookieCutter) (K : string)
    (V V2 : value) (more : list value) (s : gmap string value) :
  isascii K = true ->
  lower K = K ->
  s !! K = Some V ->
  cookie_do fuel cutter ("get" ++ capitalize K) [] s = (Ok V, s) /\
  cookie_do fuel cutter ("set" ++ capitalize K) (V2 :: more) s
  = (Ok VNone, <[K := V2]> s) /\
  cookie_do fuel cutter ("get" ++ capitalize K) [] (<[K := V2]> s)
  = (Ok V2, <[K := V2]> s).
Proof.
  intros Hascii HK HV.
  apply accessor_round_trip; [|assumption].
  now apply lower_capitalize_isascii.
Qed.

Lemma get_set_round_trip_witness :
  isascii "color" = true /\
  lower "color" = "color" /\
  cookie_do 0 macadamiaCookieCutter "getColor" [] {[ "color" := VStr "white" ]}
  = (Ok (VStr "white"), {[ "color" := VStr "white" ]}) /\
  cookie_do 0 macadamiaCookieCutter "setColor" [VStr "dark"]
            {[ "color" := VStr "white" ]}
  = (Ok VNone, <[ "color" := VStr "dark" ]> {[ "color" := VStr "white" ]}) /\
  cookie_do 0 macadamiaCookieCutter "getColor" []
            (<[ "color" := VStr "dark" ]> {[ "color" := VStr "white" ]})
  = (Ok (VStr "dark"),
     <[ "color" := VStr "dark" ]> {[ "color" := VStr "white" ]}).
Proof.
  split; [reflexivity|]. split; [reflexivity|].
  apply (get_set_round_trip 0 macadamiaCookieCutter "color"
           (VStr "white") (VStr "dark") [] {[ "color" := VStr "white" ]});
    reflexivity.
Defined.

(** C4, as stated, fails: a set accessor on a key the cookie does not have
    succeeds and adds the key. *)
Lemma set_absent_key_counterexample :
  startswith "setWeight" "set" = true /\
  lower (slice_from 3 "setWeight") = "weight" /\
  _values noonCookie !! "weight" = None /\
  do 0 noonCookie "setWeight" [VInt 3]
  = (Ok VNone,
     newCookie macadamiaCookieCutter
       (<[ "weight" := VInt 3 ]> {[ "color" := VStr "white" ]})) /\
  snd (do 0 noonCookie "setWeight" [VInt 3]) <> noonCookie.
Proof. repeat split; try reflexivity. vm_compute. discriminate. Qed.

(** C4, amended: a set accessor whose key is absent raises nothing when it
    is given a value: it returns [None] and binds the key to the value,
    every other key keeping its binding.  Without a value it raises
    [IndexError] and leaves the values unchanged.  A get accessor never
    changes the values. *)
Theorem set_accessor_creates_key (fuel : nat) (cutter : CookieCutter)
    (op : string) (a : value) (more : list value) (s : gmap string value) :
  startswith op "set" = true ->
  s !! lower (slice_from 3 op) = None ->
  cookie_do fuel cutter op (a :: more) s
  = (Ok VNone, <[lower (slice_from 3 op) := a]> s) /\
  <[lower (slice_from 3 op) := a]> s !! lower (slice_from 3 op) = Some a /\
  (forall k : string, k <> lower (slice_from 3 op) ->
     <[lower (slice_from 3 op) := a]> s !! k = s !! k) /\
  cookie_do fuel cutter op [] s = (Raise IndexError, s) /\
  (forall (op' : string) (args : list value),
     startswith op' "get" = true ->
     snd (cookie_do fuel cutter op' args s) = s).
Proof.
  intros Hset Habsent.
  rewrite !cookie_do_set by assumption. unfold setitem, raise.
  repeat split.
  - apply lookup_insert_eq.
  - intros k Hk. now apply lookup_insert_ne.
  - intros op' args Hget. rewrite cookie_do_get by assumption.
    unfold getitem. now destruct (s !! lower (slice_from 3 op')).
Qed.

Lemma set_accessor_creates_key_witness :
  cookie_do 0 macadamiaCookieCutter "setWeight" [VInt 3]
            {[ "color" := VStr "white" ]}
  = (Ok VNone, <[ "weight" := VInt 3 ]> {[ "color" := VStr "white" ]}).
Proof.
  apply (set_accessor_creates_key 0 macadamiaCookieCutter "setWeight"
           (VInt 3) [] {[ "color" := VStr "white" ]});
    reflexivity.
Defined.

(** C5: a name that begins with "get" or "set" is served by the accessor
    before the cutter is asked: the outcome is the same whatever the cutter
    and its operations, and a get on a key the cookie does not have raises
    [KeyError], also for a cutter whose operations contain that very
    name. *)
Theorem accessor_before_operations (fuel : nat) (cutter : CookieCutter)
    (op : string) (args : list value) (s : gmap string value) :
  startswith op "get" = true \/ startswith op "set" = true ->
  (forall (fuel' : nat) (cutter' : CookieCutter),
     cookie_do fuel' cutter' op args s = cookie_do fuel cutter op args s) /\
  (startswith op "get" = true ->
   s !! lower (slice_from 3 op) = None ->
   cookie_do fuel cutter op args s
   = (Raise (KeyError (lower (slice_from 3 op))), s)).
Proof.
  intros Hacc. split.
  - intros fuel' cutter'.
    destruct Hacc as [Hget|Hset].
    + now rewrite !cookie_do_get by assumption.
    + now rewrite !cookie_do_set by assumption.
  - intros Hget Habsent. rewrite cookie_do_get by assumption.
    unfold getitem. now rewrite Habsent.
Qed.

Lemma accessor_before_operations_witness :
  is_Some (_operations greeterCutter !! "getX") /\
  cookie_do 1 greeterCutter "getX" [] ∅ = (Raise (KeyError "x"), ∅).
Proof.
  split; [eexists; reflexivity|].
  apply (accessor_before_operations 1 greeterCutter "getX" [] ∅);
    [left|..]; reflexivity.
Defined.

(** *** Failures while trying the helpers *)



(** *** Arguments *)

(** C8 does not hold of [cookie.do]: it calls the cutter with the name
    alone, so an operation never sees the arguments of the call.  With
    ["Ann"] as argument the cookie answers with the default of [greet],
    while the cutter called with the same argument returns ["Ann"]. *)
Theorem cookie_do_drops_arguments :
  do 1 (newCookie greeterCutter ∅) "greet" [VStr "Ann"]
  = (Ok (VStr "nobody"), newCookie greeterCutter ∅) /\
  CookieCutter_do greeterCutter (handle 0 greeterCutter) "greet" [VStr "Ann"] ∅
  = (Ok (VStr "Ann"), ∅) /\
  (forall (fuel : nat) (cutter : CookieCutter) (op : string)
          (args : list value),
     startswith op "set" = false -> startswith op "get" = false ->
     cookie_do (S fuel) cutter op args
     = CookieCutter_do cutter (handle fuel cutter) op []).
Proof.
  repeat split; try reflexivity.
  intros fuel cutter op args Hs Hg. now apply cookie_do_other.
Qed.

(** *** The macadamia cookies *)

(** C9: a macadamia cookie whose color is "white" contemplates itself baked
    at 30, one whose color is "dark" baked at 100, the values unchanged;
    two nested calls back into the cookie are all it takes. *)
Theorem contemplate_macadamia (fuel : nat) :
  do (S (S fuel)) noonCookie "contemplate" []
  = (Ok (VStr ("I am looking at a delicious MacadamiaCookie cookie, baked at "
               ++ "30" ++ ". Temptation is strong.")),
     noonCookie) /\
  do (S (S fuel)) midnightCookie "contemplate" []
  = (Ok (VStr ("I am looking at a delicious MacadamiaCookie cookie, baked at "
               ++ "100" ++ ". Temptation is strong.")),
     midnightCookie).
Proof. destruct fuel; split; reflexivity. Qed.

End InheritanceSpec.

(** ** The dispatch on a mood *)
Module ParametricSpec.
Import Parametric.

Lemma CookieCutter_do_mood_eq (self : CookieCutter) (cookie : cookie_handle)
    (mood op : string) (args : list value) :
  CookieCutter_do self cookie mood op args =
  match _operations self !! op with
  | None =>
      match _helpers self with
      | HelpersList _ => raise TypeError
      | HelpersDict d =>
          match dict_get d mood with
          | None => raise (KeyError mood)
          | Some helper => CookieCutter_do helper cookie mood op args
          end
      end
  | Some f => f cookie args
  end.
Proof.
  destruct self as [name operations helpers]; simpl.
  destruct (operations !! op); [reflexivity|].
  destruct helpers as [l|d]; [reflexivity|].
  induction d as [|[k h] d IH]; cbn [dict_get]; [reflexivity|].
  now destruct (String.eqb k mood).
Qed.

(** C7: when the cutter does not define "contemplate" and its helpers send
    "beachbody" to [C1] and "honest" to [C2], which both define it, the
    dispatch with mood "beachbody" is the operation of [C1] and the one
    with mood "honest" that of [C2]; with a mood the helpers do not have,
    it raises the [KeyError] of the lookup, naming the mood. *)
Theorem mood_selects_helper (name : string) (operations : gmap string callable)
    (d : list (string * CookieCutter)) (C1 C2 : CookieCutter)
    (f1 f2 : callable) (cookie : cookie_handle) (args : list value)
    (s : gmap string value) :
  operations !! "contemplate" = None ->
  dict_get d "beachbody" = Some C1 ->
  dict_get d "honest" = Some C2 ->
  _operations C1 !! "contemplate" = Some f1 ->
  _operations C2 !! "contemplate" = Some f2 ->
  CookieCutter_do (mkCookieCutter name operations (HelpersDict d))
                  cookie "beachbody" "contemplate" args s
  = f1 cookie args s /\
  CookieCutter_do (mkCookieCutter name operations (HelpersDict d))
                  cookie "honest" "contemplate" args s
  = f2 cookie args s /\
  (forall mood : string,
     dict_get d mood = None ->
     CookieCutter_do (mkCookieCutter name operations (HelpersDict d))
                     cookie mood "contemplate" args s
     = (Raise (KeyError mood), s)).
Proof.
  intros Hown HC1 HC2 Hf1 Hf2.
  repeat split; [| |intros mood Hmood];
    rewrite CookieCutter_do_mood_eq; cbn [_operations _helpers]; rewrite Hown.
  - rewrite HC1. now rewrite CookieCutter_do_mood_eq, Hf1.
  - rewrite HC2. now rewrite CookieCutter_do_mood_eq, Hf2.
  - now rewrite Hmood.
Qed.

Lemma mood_selects_helper_witness :
  CookieCutter_do macadamiaCookieCutter (handle 0 macadamiaCookieCutter)
                  "beachbody" "contemplate" [] {[ "color" := VStr "white" ]}
  = contemplate (handle 0 macadamiaCookieCutter) []
                {[ "color" := VStr "white" ]} /\
  CookieCutter_do macadamiaCookieCutter (handle 0 macadamiaCookieCutter)
                  "honest" "contemplate" [] {[ "color" := VStr "white" ]}
  = succumb (handle 0 macadamiaCookieCutter) []
            {[ "color" := VStr "white" ]} /\
  CookieCutter_do macadamiaCookieCutter (handle 0 macadamiaCookieCutter)
                  "hungry" "contemplate" [] {[ "color" := VStr "white" ]}
  = (Raise (KeyError "hungry"), {[ "color" := VStr "white" ]}).
Proof.
  destruct (mood_selects_helper "MacadamiaCookie" ∅
              [("beachbody", beachbodyNutsCookieCutter);
               ("honest", honestNutsCookieCutter)]
              beachbodyNutsCookieCutter honestNutsCookieCutter
              contemplate succumb (handle 0 macadamiaCookieCutter) []
              {[ "color" := VStr "white" ]})
    as (Hbeach & Hhonest & Hmood); try reflexivity.
  split; [exact Hbeach|]. split; [exact Hhonest|].
  apply Hmood. reflexivity.
Defined.

(** The two lines the cell prints, and a mood the cutter has no helper
    for. *)
Example noon_cookie_moods :
  do 1 noonCookie "contemplate" "beachbody" []
  = (Ok (VStr "I am looking at a delicious MacadamiaCookie cookie. Temptation is strong."),
     noonCookie) /\
  do 1 noonCookie "contemplate" "honest" []
  = (Ok (VStr "I was looking at a delicious MacadamiaCookie cookie. Temptation was too strong."),
     noonCookie) /\
  do 1 noonCookie "contemplate" "hungry" []
  = (Raise (KeyError "hungry"), noonCookie).
Proof. repeat split; reflexivity. Qed.

(** C10: an operation the cutter itself defines is run straight away,
    whatever the mood and whatever the helpers: the mood is not looked up,
    so a mood without helper raises nothing here. *)
Theorem own_operation_ignores_mood (self : CookieCutter) (f : callable)
    (cookie : cookie_handle) (mood op : string) (args : list value)
    (s : gmap string value) :
  _operations self !! op = Some f ->
  CookieCutter_do self cookie mood op args s = f cookie args s.
Proof. intros Hown. now rewrite CookieCutter_do_mood_eq, Hown. Qed.

Lemma own_operation_ignores_mood_witness :
  dict_get (C:=CookieCutter) [] "hungry" = None /\
  CookieCutter_do (mkCookieCutter "Nuts" {[ "contemplate" := contemplate ]}
                                  (HelpersDict []))
                  (handle 0 macadamiaCookieCutter) "hungry" "contemplate" [] ∅
  = (Ok (VStr "I am looking at a delicious MacadamiaCookie cookie. Temptation is strong."), ∅).
Proof.
  split; [reflexivity|].
  apply (own_operation_ignores_mood
           (mkCookieCutter "Nuts" {[ "contemplate" := contemplate ]}
                           (HelpersDict []))
           contemplate (handle 0 macadamiaCookieCutter) "hungry"
           "contemplate" [] ∅).
  reflexivity.
Defined.

End ParametricSpec.

(** ** The resolution order of a dispatch *)
Module ResolutionSpec.
Import Inheritance Resolution InheritanceSpec.

Lemma try_return_else_ext {A : Type} (m m' k k' : M A) (s : gmap string value) :
  m s = m' s -> (forall t, k t = k' t) ->
  try_return_else m k s = try_return_else m' k' s.
Proof.
  intros Hm Hk. unfold try_return_else. rewrite Hm.
  destruct (m' s) as [[a|e|] t]; auto.
Qed.

Lemma candidates_eq (self : CookieCutter) (op : string) :
  candidates self op =
  match _operations self !! op with
  | Some f => [f]
  | None => helper_candidates (_helpers self) op
  end.
Proof.
  destruct self as [name operations helpers]; simpl.
  destruct (operations !! op); [reflexivity|].
  induction helpers as [|h rest IH]; simpl; [reflexivity|].
  now rewrite IH.
Qed.

Lemma first_success_app (fs gs : list callable) (cookie : cookie_handle)
    (op : string) (args : list value) (s : gmap string value) :
  first_success (fs ++ gs)%list cookie op args s =
  try_return_else (first_success fs cookie op args)
                  (first_success gs cookie op args) s.
Proof.
  revert s. induction fs as [|f fs IH]; intros s; [reflexivity|].
  cbn [first_success app]. unfold try_return_else at 1 2 3.
  destruct (f cookie args s) as [[v|e|] t]; try reflexivity.
  rewrite IH. reflexivity.
Qed.

Lemma for_helpers_candidates (hs : list CookieCutter)
    (cookie : cookie_handle) (op : string) (args : list value) :
  Forall (fun h => forall (k : M value) (s : gmap string value),
            try_return_else (CookieCutter_do h cookie op args) k s =
            try_return_else (first_success (candidates h op) cookie op args)
                            k s) hs ->
  forall s : gmap string value,
    for_helpers hs cookie op args s =
    first_success (helper_candidates hs op) cookie op args s.
Proof.
  induction 1 as [|h rest Hh _ IH]; intros s; [reflexivity|].
  cbn [for_helpers helper_candidates]. rewrite first_success_app, Hh.
  now apply try_return_else_ext.
Qed.

Lemma try_candidates (self : CookieCutter) (cookie : cookie_handle)
    (op : string) (args : list value) :
  forall (k : M value) (s : gmap string value),
    try_return_else (CookieCutter_do self cookie op args) k s =
    try_return_else (first_success (candidates self op) cookie op args) k s.
Proof.
  induction self as [name operations helpers IH] using CookieCutter_ind.
  intros k s. rewrite candidates_eq. cbn [_operations _helpers].
  destruct (operations !! op) as [f|] eqn:Hown.
  - unfold try_return_else. rewrite CookieCutter_do_eq.
    cbn [_operations first_success]. rewrite Hown.
    unfold try_return_else, raise.
    now destruct (f cookie args s) as [[v|e|] t].
  - apply try_return_else_ext; [|reflexivity].
    rewrite CookieCutter_do_eq. cbn [_operations _helpers]. rewrite Hown.
    now apply for_helpers_candidates.
Qed.

(** X1: a dispatch that does not find the operation in the cutter itself
    is the loop over the operations its helpers can reach, taken helper by
    helper and each helper to its full depth before the next; an operation
    of the cutter itself is run directly, outside any [try]. *)
Theorem dispatch_follows_resolution_order (self : CookieCutter)
    (cookie : cookie_handle) (op : string) (args : list value)
    (s : gmap string value) :
  CookieCutter_do self cookie op args s =
  match _operations self !! op with
  | Some f => f cookie args s
  | None =>
      first_success (helper_candidates (_helpers self) op) cookie op args s
  end.
Proof.
  rewrite CookieCutter_do_eq.
  destruct (_operations self !! op) as [f|]; [reflexivity|].
  apply for_helpers_candidates.
  apply Forall_forall. intros h _. apply try_candidates.
Qed.

Lemma first_success_outcome (fs : list callable) (cookie : cookie_handle)
    (op : string) (args : list value) :
  forall s : gmap string value,
    (exists v s', first_success fs cookie op args s = (Ok v, s')) \/
    (exists s', first_success fs cookie op args s = (OutOfFuel, s')) \/
    (exists s', first_success fs cookie op args s
                = (Raise (NoSuchOperation op), s')).
Proof.
  induction fs as [|f fs IH]; intros s.
  - right. right. now exists s.
  - cbn [first_success]. unfold try_return_else.
    destruct (f cookie args s) as [[v|e|] t]; eauto.
Qed.

(** X2: when the cutter itself does not define the operation, the only
    exception its dispatch can raise is "no such operation" for that name:
    whatever the operations of the helpers raised is lost. *)
Theorem helper_errors_are_masked (self : CookieCutter)
    (cookie : cookie_handle) (op : string) (args : list value)
    (s : gmap string value) :
  _operations self !! op = None ->
  (exists v s', CookieCutter_do self cookie op args s = (Ok v, s')) \/
  (exists s', CookieCutter_do self cookie op args s = (OutOfFuel, s')) \/
  (exists s', CookieCutter_do self cookie op args s
              = (Raise (NoSuchOperation op), s')).
Proof.
  intros Hown. rewrite CookieCutter_do_eq, Hown.
  rewrite for_helpers_candidates
    by (apply Forall_forall; intros h _; apply try_candidates).
  apply first_success_outcome.
Qed.

Lemma helper_errors_are_masked_witness :
  weigh (handle 0 cutterA) [] ∅ = (Raise (KeyError "weight"), ∅) /\
  ((exists v s',
       CookieCutter_do (mkCookieCutter "D" ∅ [cutterA]) (handle 0 cutterA)
                       "x" [] ∅ = (Ok v, s')) \/
   (exists s',
       CookieCutter_do (mkCookieCutter "D" ∅ [cutterA]) (handle 0 cutterA)
                       "x" [] ∅ = (OutOfFuel, s')) \/
   (exists s',
       CookieCutter_do (mkCookieCutter "D" ∅ [cutterA]) (handle 0 cutterA)
                       "x" [] ∅ = (Raise (NoSuchOperation "x"), s'))).
Proof.
  split; [reflexivity|].
  apply (helper_errors_are_masked (mkCookieCutter "D" ∅ [cutterA])
           (handle 0 cutterA) "x" [] ∅).
  reflexivity.
Defined.

Lemma unresolvable_helpers_skipped (pre rest : list CookieCutter)
    (cookie : cookie_handle) (op : string) (args : list value) :
  Forall (fun h => resolvable h op = false) pre ->
  forall s : gmap string value,
    for_helpers (pre ++ rest)%list cookie op args s =
    for_helpers rest cookie op args s.
Proof.
  induction 1 as [|h pre Hh _ IH]; intros s; [reflexivity|].
  cbn [app for_helpers]. unfold try_return_else.
  rewrite (unresolvable_dispatch h cookie op args Hh s). apply IH.
Qed.

(** X3: helpers that do not define the operation, at any depth, can be
    listed before the others without changing any dispatch of it: they
    are passed over and leave the values alone. *)
Theorem helpers_without_operation_are_skipped (name : string)
    (operations : gmap string callable) (pre rest : list CookieCutter)
    (cookie : cookie_handle) (op : string) (args : list value)
    (s : gmap string value) :
  Forall (fun h => resolvable h op = false) pre ->
  CookieCutter_do (mkCookieCutter name operations (pre ++ rest)%list)
                  cookie op args s
  = CookieCutter_do (mkCookieCutter name operations rest) cookie op args s.
Proof.
  intros Hpre. rewrite !CookieCutter_do_eq. cbn [_operations _helpers].
  destruct (operations !! op); [reflexivity|].
  now apply unresolvable_helpers_skipped.
Qed.

Lemma helpers_without_operation_are_skipped_witness :
  resolvable nutsCookieCutter "x" = false /\
  CookieCutter_do (mkCookieCutter "D" ∅ [nutsCookieCutter; cutterB])
                  (handle 0 cutterB) "x" [] ∅
  = CookieCutter_do (mkCookieCutter "D" ∅ [cutterB])
                    (handle 0 cutterB) "x" [] ∅.
Proof.
  split; [reflexivity|].
  apply (helpers_without_operation_are_skipped "D" ∅ [nutsCookieCutter]
           [cutterB] (handle 0 cutterB) "x" [] ∅).
  constructor; [reflexivity|constructor].
Defined.

End ResolutionSpec.

(** ** More on the accessors *)
Module AccessorSpec.
Import Inheritance InheritanceSpec.

(** X4: a set accessor changes one key only: a get accessor for any other
    key, before and after it, gives the same outcome. *)
Theorem set_leaves_other_keys (fuel : nat) (cutter : CookieCutter)
    (setter getter : string) (a : value) (more args : list value)
    (s : gmap string value) :
  startswith setter "set" = true ->
  startswith getter "get" = true ->
  lower (slice_from 3 setter) <> lower (slice_from 3 getter) ->
  fst (cookie_do fuel cutter getter args
         (snd (cookie_do fuel cutter setter (a :: more) s)))
  = fst (cookie_do fuel cutter getter args s).
Proof.
  intros Hset Hget Hne.
  rewrite (cookie_do_set fuel cutter setter) by assumption.
  rewrite !(cookie_do_get fuel cutter getter) by assumption.
  unfold setitem, getitem. cbn [snd].
  rewrite lookup_insert_ne by assumption.
  now destruct (s !! lower (slice_from 3 getter)).
Qed.

Lemma set_leaves_other_keys_witness :
  fst (cookie_do 0 macadamiaCookieCutter "getColor" []
         (snd (cookie_do 0 macadamiaCookieCutter "setWeight" [VInt 3]
                         {[ "color" := VStr "white" ]})))
  = fst (cookie_do 0 macadamiaCookieCutter "getColor" []
                   {[ "color" := VStr "white" ]}).
Proof.
  apply (set_leaves_other_keys 0 macadamiaCookieCutter "setWeight" "getColor"
           (VInt 3) [] [] {[ "color" := VStr "white" ]});
    [reflexivity|reflexivity|discriminate].
Defined.

(** X5: the case of the letters after "get" or "set" does not matter: two
    accessor names whose suffixes have the same lower-case form read, or
    write, the same key. *)
Theorem accessor_suffix_case_is_ignored (fuel : nat) (cutter : CookieCutter)
    (x y : string) (args : list value) (s : gmap string value) :
  lower x = lower y ->
  cookie_do fuel cutter ("get" ++ x) args s
  = cookie_do fuel cutter ("get" ++ y) args s /\
  cookie_do fuel cutter ("set" ++ x) args s
  = cookie_do fuel cutter ("set" ++ y) args s.
Proof.
  intros Hxy. split.
  - rewrite !cookie_do_get by apply (startswith_app "get").
    now rewrite !(slice_from_app "get"), Hxy.
  - rewrite !cookie_do_set by apply (startswith_app "set").
    now rewrite !(slice_from_app "set"), Hxy.
Qed.

Lemma accessor_suffix_case_is_ignored_witness :
  cookie_do 0 macadamiaCookieCutter "getCOLOR" [] {[ "color" := VStr "white" ]}
  = cookie_do 0 macadamiaCookieCutter "getcolor" []
              {[ "color" := VStr "white" ]} /\
  cookie_do 0 macadamiaCookieCutter "setCOLOR" [] {[ "color" := VStr "white" ]}
  = cookie_do 0 macadamiaCookieCutter "setcolor" []
              {[ "color" := VStr "white" ]}.
Proof.
  apply (accessor_suffix_case_is_ignored 0 macadamiaCookieCutter "COLOR"
           "color" [] {[ "color" := VStr "white" ]}).
  reflexivity.
Defined.

End AccessorSpec.

(** ** Cookies made from one dictionary *)
Module SharingSpec.
Import Inheritance InheritanceSpec Sharing.

(** X6: [newCookie] does not copy the dictionary it is given: of two
    cookies made from the same dictionary, whatever their cutters, a set
    on one is read by a get on the other; a cookie made from another
    dictionary reads what it read before. *)
Theorem cookies_share_their_dictionary (fuel : nat)
    (cutter1 cutter2 cutter3 : CookieCutter) (attr other : nat)
    (K : string) (v : value) (s t : gmap string value)
    (dicts : gmap nat (gmap string value)) :
  lower K = K ->
  attr <> other ->
  dicts !! attr = Some s ->
  dicts !! other = Some t ->
  exists dicts',
    do_at fuel (newCookie_at cutter1 attr) ("set" ++ capitalize K) [v] dicts
    = Some (Ok VNone, dicts') /\
    do_at fuel (newCookie_at cutter2 attr) ("get" ++ capitalize K) [] dicts'
    = Some (Ok v, dicts') /\
    fst <$> do_at fuel (newCookie_at cutter3 other)
                  ("get" ++ capitalize K) [] dicts'
    = fst <$> do_at fuel (newCookie_at cutter3 other)
                    ("get" ++ capitalize K) [] dicts.
Proof.
  intros HK Hne Hs Ht.
  exists (<[attr := <[K := v]> s]> dicts).
  unfold do_at, newCookie_at. cbn [at_values at_cutter].
  rewrite Hs, Ht, lookup_insert_eq, lookup_insert_ne, Ht by assumption.
  rewrite (cookie_do_set fuel cutter1 ("set" ++ capitalize K))
    by apply (startswith_app "set").
  rewrite (cookie_do_get fuel cutter2 ("get" ++ capitalize K)),
          !(cookie_do_get fuel cutter3 ("get" ++ capitalize K))
    by apply (startswith_app "get").
  rewrite set_capitalize_key, get_capitalize_key by assumption.
  unfold setitem, getitem. rewrite lookup_insert_eq.
  repeat split.
  - now rewrite insert_insert_eq.
  - now destruct (t !! K).
Qed.

Lemma cookies_share_their_dictionary_witness :
  exists dicts',
    do_at 0 (newCookie_at macadamiaCookieCutter 1) "setColor" [VStr "dark"]
          {[ 1 := {[ "color" := VStr "white" ]};
             2 := {[ "color" := VStr "white" ]} ]}
    = Some (Ok VNone, dicts') /\
    do_at 0 (newCookie_at nutsCookieCutter 1) "getColor" [] dicts'
    = Some (Ok (VStr "dark"), dicts') /\
    fst <$> do_at 0 (newCookie_at macadamiaCookieCutter 2) "getColor" [] dicts'
    = fst <$> do_at 0 (newCookie_at macadamiaCookieCutter 2) "getColor" []
                    {[ 1 := {[ "color" := VStr "white" ]};
                       2 := {[ "color" := VStr "white" ]} ]}.
Proof.
  apply (cookies_share_their_dictionary 0 macadamiaCookieCutter
           nutsCookieCutter macadamiaCookieCutter 1 2 "color" (VStr "dark")
           {[ "color" := VStr "white" ]} {[ "color" := VStr "white" ]});
    [reflexivity|discriminate|reflexivity|reflexivity].
Defined.

End SharingSpec.

(** ** More on the dispatch on a mood *)
Module MoodSpec.
Import Parametric MoodResolution.

Lemma resolve_eq (self : CookieCutter) (mood op : string) :
  resolve self mood op =
  match _operations self !! op with
  | Some f => inl f
  | None =>
      match _helpers self with
      | HelpersList _ => inr TypeError
      | HelpersDict d =>
          match dict_get d mood with
          | None => inr (KeyError mood)
          | Some helper => resolve helper mood op
          end
      end
  end.
Proof.
  destruct self as [name operations helpers]; simpl.
  destruct (operations !! op); [reflexivity|].
  destruct helpers as [l|d]; [reflexivity|].
  induction d as [|[k h] d IH]; cbn [dict_get]; [reflexivity|].
  now destruct (String.eqb k mood).
Qed.

Lemma dict_get_Forall {C : Type} (P : C -> Prop) (d : list (string * C))
    (mood : string) (h : C) :
  Forall (fun kh : string * C => P (snd kh)) d ->
  dict_get d mood = Some h -> P h.
Proof.
  induction 1 as [|[k c] d Hc _ IH]; cbn [dict_get]; [discriminate|].
  destruct (String.eqb k mood); [|exact IH].
  intros [= <-]. exact Hc.
Qed.

Lemma CookieCutter_do_resolve (self : CookieCutter)
    (cookie : cookie_handle) (mood op : string) (args : list value)
    (s : gmap string value) :
  CookieCutter_do self cookie mood op args s =
  match resolve self mood op with
  | inl f => f cookie args s
  | inr e => (Raise e, s)
  end.
Proof.
  induction self as [name operations l|name operations d IH]
    using CookieCutter_ind;
    rewrite ParametricSpec.CookieCutter_do_mood_eq, resolve_eq;
    cbn [_operations _helpers];
    destruct (operations !! op) as [f|]; try reflexivity.
  destruct (dict_get d mood) as [h|] eqn:Hh; [|reflexivity].
  exact (dict_get_Forall
           (fun c => CookieCutter_do c cookie mood op args s =
                     match resolve c mood op with
                     | inl f => f cookie args s
                     | inr e => (Raise e, s)
                     end) d mood h IH Hh).
Qed.

(** X7: the dispatch on a mood is a lookup followed by one call: which
    operation is run, or which exception is raised instead, depends on the
    cutter, the mood and the name only, not on the cookie, the arguments
    or the values; a failed lookup leaves the values as they are. *)
Theorem dispatch_is_resolve_then_call (self : CookieCutter)
    (cookie : cookie_handle) (mood op : string) (args : list value)
    (s : gmap string value) :
  CookieCutter_do self cookie mood op args s =
  match resolve self mood op with
  | inl f => f cookie args s
  | inr e => (Raise e, s)
  end.
Proof. apply CookieCutter_do_resolve. Qed.

Lemma resolve_failure (self : CookieCutter) (mood op : string) (e : exn) :
  resolve self mood op = inr e -> e = TypeError \/ e = KeyError mood.
Proof.
  induction self as [name operations l|name operations d IH]
    using CookieCutter_ind;
    rewrite resolve_eq; cbn [_operations _helpers];
    destruct (operations !! op) as [f|]; try discriminate.
  - intros [= <-]. now left.
  - destruct (dict_get d mood) as [h|] eqn:Hh.
    + exact (dict_get_Forall
               (fun c => resolve c mood op = inr e ->
                         e = TypeError \/ e = KeyError mood) d mood h IH Hh).
    + intros [= <-]. now right.
Qed.

(** X8: a dispatch on a mood that finds no operation to run never says "no
    such operation": it raises the [KeyError] of the mood, or a
    [TypeError] where the helpers are a list, and the values are
    untouched. *)
Theorem missing_operation_is_a_mood_or_type_error (self : CookieCutter)
    (cookie : cookie_handle) (mood op : string) (args : list value)
    (s : gmap string value) :
  (exists f, resolve self mood op = inl f /\
             CookieCutter_do self cookie mood op args s = f cookie args s) \/
  CookieCutter_do self cookie mood op args s = (Raise TypeError, s) \/
  CookieCutter_do self cookie mood op args s = (Raise (KeyError mood), s).
Proof.
  rewrite CookieCutter_do_resolve.
  destruct (resolve self mood op) as [f|e] eqn:Hres.
  - left. now exists f.
  - right. destruct (resolve_failure self mood op e Hres) as [->| ->]; auto.
Qed.

(** What the cutters of the notebook do with an operation none of them
    has: the helper for the mood is reached and its helpers are a list. *)
Example noon_cookie_missing_operation :
  do 1 noonCookie "bake" "honest" [] = (Raise TypeError, noonCookie) /\
  do 1 noonCookie "bake" "hungry" [] = (Raise (KeyError "hungry"), noonCookie).
Proof. split; reflexivity. Qed.

(** X9: the accessors of the parametric cookie ignore the mood, and the
    cutter: for a name that begins with "get" or "set" the outcome is that
    of the same name on the cookie of the inheritance cell. *)
Theorem accessors_ignore_the_mood (fuel fuel' : nat) (cutter : CookieCutter)
    (cutter' : Inheritance.CookieCutter) (op mood : string)
    (args : list value) (s : gmap string value) :
  startswith op "get" = true \/ startswith op "set" = true ->
  cookie_do fuel cutter op mood args s
  = Inheritance.cookie_do fuel' cutter' op args s.
Proof.
  intros [Hget|Hset].
  - rewrite InheritanceSpec.cookie_do_get by assumption.
    pose proof (startswith_get_not_set op Hget) as Hnot.
    destruct fuel; cbn [cookie_do]; now rewrite Hnot, Hget.
  - rewrite InheritanceSpec.cookie_do_set by assumption.
    destruct fuel; cbn [cookie_do]; now rewrite Hset.
Qed.

Lemma accessors_ignore_the_mood_witness :
  cookie_do 0 macadamiaCookieCutter "getColor" "honest" []
            {[ "color" := VStr "white" ]}
  = Inheritance.cookie_do 0 Inheritance.macadamiaCookieCutter "getColor" []
                          {[ "color" := VStr "white" ]}.
Proof.
  apply (accessors_ignore_the_mood 0 0 macadamiaCookieCutter
           Inheritance.macadamiaCookieCutter "getColor" "honest" []
           {[ "color" := VStr "white" ]}).
  left. reflexivity.
Defined.

End MoodSpec.

(** ** The cookies before the cutters *)
Module EarlierSpec.
Import Inheritance InheritanceSpec Earlier.

(** X10: the cutter with helpers, given no helper, dispatches as the first
    cutter did: same operation run on the same cookie and arguments, same
    "no such operation" otherwise. *)
Theorem no_helpers_is_the_first_cutter (name : string)
    (operations : gmap string callable) (cookie : cookie_handle)
    (op : string) (args : list value) (s : gmap string value) :
  Inheritance.CookieCutter_do (mkCookieCutter name operations []) cookie op
                              args s
  = Earlier.CookieCutter_do operations cookie op args s.
Proof.
  rewrite CookieCutter_do_eq. unfold Earlier.CookieCutter_do.
  cbn [_operations _helpers].
  now destruct (operations !! op).
Qed.

Lemma Cookie2_do_get (fuel : nat) (name : string)
    (operations : gmap string callable) (op : string) (args : list value) :
  startswith op "get" = true ->
  Cookie2_do fuel name operations op args = getitem (lower (slice_from 3 op)).
Proof.
  intros H. pose proof (startswith_get_not_set op H) as H'.
  destruct fuel; cbn [Cookie2_do]; now rewrite H', H.
Qed.

Lemma Cookie2_do_set (fuel : nat) (name : string)
    (operations : gmap string callable) (op : string) (args : list value) :
  startswith op "set" = true ->
  Cookie2_do fuel name operations op args =
  match args with
  | [] => raise IndexError
  | a :: _ => setitem (lower (slice_from 3 op)) a
  end.
Proof. intros H. destruct fuel; cbn [Cookie2_do]; now rewrite H. Qed.

(** X11: the accessors did not change when the operations moved from the
    cookie to a cutter: for a name that begins with "get" or "set",
    [Cookie2.do] and [cookie.do] have the same outcome and leave the same
    values. *)
Theorem accessors_carried_over (fuel fuel' : nat) (name : string)
    (operations : gmap string callable) (cutter : CookieCutter)
    (op : string) (args : list value) (s : gmap string value) :
  startswith op "get" = true \/ startswith op "set" = true ->
  Cookie2_do fuel name operations op args s = cookie_do fuel' cutter op args s.
Proof.
  intros [Hget|Hset].
  - now rewrite Cookie2_do_get, cookie_do_get by assumption.
  - now rewrite Cookie2_do_set, cookie_do_set by assumption.
Qed.

Lemma accessors_carried_over_witness :
  Cookie2_do 0 "Nuts cookie" {[ "bake" := bake_nuts ]} "setWeight" [VInt 3]
             {[ "weight" := VInt 2 ]}
  = cookie_do 0 macadamiaCookieCutter "setWeight" [VInt 3]
              {[ "weight" := VInt 2 ]}.
Proof.
  apply (accessors_carried_over 0 0 "Nuts cookie" {[ "bake" := bake_nuts ]}
           macadamiaCookieCutter "setWeight" [VInt 3]
           {[ "weight" := VInt 2 ]}).
  right. reflexivity.
Defined.

(** X12: [bake_nuts] reads the weight through the cookie's own accessor:
    after [setWeight] with an integer [w], baking takes [w * 12] minutes,
    whatever the weight was before; on a cookie without weight the
    [KeyError] of the accessor comes out of [do]. *)
Theorem bake_nuts_reads_the_weight (fuel : nat) (name : string)
    (operations : gmap string callable) (w : Z) (s : gmap string value) :
  operations !! "bake" = Some bake_nuts ->
  Cookie2_do (S fuel) name operations "bake" []
    (snd (Cookie2_do (S fuel) name operations "setWeight" [VInt w] s))
  = (Ok (VStr ("baking " ++ pretty (w * 12)%Z ++ " minutes")),
     <["weight" := VInt w]> s) /\
  (s !! "weight" = None ->
   Cookie2_do (S fuel) name operations "bake" [] s
   = (Raise (KeyError "weight"), s)).
Proof.
  intros Hbake.
  assert (Hdo : forall t : gmap string value,
             Cookie2_do (S fuel) name operations "bake" [] t
             = bake_nuts (Cookie2_handle fuel name operations) [] t).
  { intros t. cbn [Cookie2_do startswith]. cbn. now rewrite Hbake. }
  split.
  - rewrite Hdo. rewrite Cookie2_do_set by reflexivity.
    unfold bake_nuts, bind, Cookie2_handle. cbn [handle_do].
    rewrite Cookie2_do_get by reflexivity.
    cbn [slice_from]. unfold setitem, getitem. cbn [snd].
    change (lower "Weight") with "weight". now rewrite lookup_insert_eq.
  - intros Hnone. rewrite Hdo.
    unfold bake_nuts, bind, Cookie2_handle. cbn [handle_do].
    rewrite Cookie2_do_get by reflexivity.
    cbn [slice_from]. unfold getitem.
    change (lower "Weight") with "weight". now rewrite Hnone.
Qed.

Lemma bake_nuts_reads_the_weight_witness :
  Cookie2_do 1 "Nuts cookie" {[ "bake" := bake_nuts ]} "bake" []
    (snd (Cookie2_do 1 "Nuts cookie" {[ "bake" := bake_nuts ]} "setWeight"
                     [VInt 3] {[ "weight" := VInt 2 ]}))
  = (Ok (VStr "baking 36 minutes"),
     <["weight" := VInt 3]> {[ "weight" := VInt 2 ]}).
Proof.
  apply (bake_nuts_reads_the_weight 0 "Nuts cookie" {[ "bake" := bake_nuts ]}
           3 {[ "weight" := VInt 2 ]}).
  reflexivity.
Defined.

End EarlierSpec.

(** ** [MagicDict] *)
Module MagicDictSpec.
Import MagicDict.

Lemma eqb_d_false (attr : string) : attr <> "_d" -> String.eqb attr "_d" = false.
Proof. intros H. now apply String.eqb_neq. Qed.

(** X13: assigning an attribute never adds a key to the dictionary, nor
    removes one: whether the assignment returns or raises, the dictionary
    afterwards has the keys it had. *)
Theorem setattr_keeps_the_keys (d : gmap string obj) (attr : string)
    (value : obj) :
  attr <> "_d" ->
  exists d' : gmap string obj,
    snd (MagicDict_setattr (ODict d) attr value) = ODict d' /\
    dom d' = dom d.
Proof.
  intros Hattr. unfold MagicDict_setattr. rewrite eqb_d_false by assumption.
  destruct (d !! attr) as [old|] eqn:Hold.
  - exists (<[attr := value]> d). split; [reflexivity|].
    rewrite dom_insert_L. apply subseteq_union_1_L.
    apply singleton_subseteq_l. now apply elem_of_dom_2 with old.
  - now exists d.
Qed.

Lemma setattr_keeps_the_keys_witness :
  exists d' : gmap string obj,
    snd (MagicDict_setattr
           (ODict {[ "name" := OValue (VStr "Jack the Ripper");
                     "age" := OValue (VInt 21) ]})
           "age" (OValue (VInt 23))) = ODict d' /\
    dom d' = dom ({[ "name" := OValue (VStr "Jack the Ripper");
                     "age" := OValue (VInt 21) ]} : gmap string obj).
Proof.
  apply (setattr_keeps_the_keys
           {[ "name" := OValue (VStr "Jack the Ripper");
              "age" := OValue (VInt 21) ]} "age" (OValue (VInt 23))).
  discriminate.
Defined.

(** X14: on a key the dictionary has, an assignment returns, the attribute
    then reads as the value assigned, and every other attribute reads as
    before. *)
Theorem setattr_then_getattr (d : gmap string obj) (attr : string)
    (old value : obj) :
  attr <> "_d" ->
  d !! attr = Some old ->
  MagicDict_setattr (ODict d) attr value
  = (Returned tt, ODict (<[attr := value]> d)) /\
  MagicDict_getattr (ODict (<[attr := value]> d)) attr = Returned value /\
  (forall other : string,
     other <> attr ->
     MagicDict_getattr (ODict (<[attr := value]> d)) other
     = MagicDict_getattr (ODict d) other).
Proof.
  intros Hattr Hold. unfold MagicDict_setattr, MagicDict_getattr.
  rewrite eqb_d_false, Hold, lookup_insert_eq by assumption.
  repeat split. intros other Hother.
  now rewrite lookup_insert_ne by congruence.
Qed.

Lemma setattr_then_getattr_witness :
  MagicDict_setattr
    (ODict {[ "name" := OValue (VStr "Jack the Ripper");
              "age" := OValue (VInt 21) ]})
    "age" (OValue (VInt 23))
  = (Returned tt,
     ODict (<["age" := OValue (VInt 23)]>
              {[ "name" := OValue (VStr "Jack the Ripper");
                 "age" := OValue (VInt 21) ]})) /\
  MagicDict_getattr
    (ODict (<["age" := OValue (VInt 23)]>
              {[ "name" := OValue (VStr "Jack the Ripper");
                 "age" := OValue (VInt 21) ]})) "age"
  = Returned (OValue (VInt 23)).
Proof.
  destruct (setattr_then_getattr
              {[ "name" := OValue (VStr "Jack the Ripper");
                 "age" := OValue (VInt 21) ]}
              "age" (OValue (VInt 21)) (OValue (VInt 23)))
    as (Hset & Hget & _); [discriminate|reflexivity|].
  split; [exact Hset|exact Hget].
Defined.

(** X15: on a key the dictionary does not have, an assignment raises
    [Exception("No such key " + attr)] and the dictionary is unchanged;
    reading that attribute raises [KeyError]. *)
Theorem setattr_missing_key (d : gmap string obj) (attr : string)
    (value : obj) :
  attr <> "_d" ->
  d !! attr = None ->
  MagicDict_setattr (ODict d) attr value = (Raised (NoSuchKey attr), ODict d) /\
  MagicDict_getattr (ODict d) attr = Raised (KeyError attr).
Proof.
  intros Hattr Hnone. unfold MagicDict_setattr, MagicDict_getattr.
  now rewrite eqb_d_false, Hnone by assumption.
Qed.

Lemma setattr_missing_key_witness :
  MagicDict_setattr (ODict {[ "age" := OValue (VInt 21) ]}) "height"
                    (OValue (VInt 180))
  = (Raised (NoSuchKey "height"), ODict {[ "age" := OValue (VInt 21) ]}) /\
  MagicDict_getattr (ODict {[ "age" := OValue (VInt 21) ]}) "height"
  = Raised (KeyError "height").
Proof.
  apply (setattr_missing_key {[ "age" := OValue (VInt 21) ]} "height"
           (OValue (VInt 180)));
    [discriminate|reflexivity].
Defined.

(** X16: around anything but a dictionary the object is inert: every
    attribute read raises, and every assignment other than to [_d] raises
    and leaves [_d] as it was. *)
Theorem plain_value_is_inert (v : value) (attr : string) (value : obj) :
  attr <> "_d" ->
  (exists e, MagicDict_getattr (OValue v) attr = Raised e) /\
  (exists e, MagicDict_setattr (OValue v) attr value = (Raised e, OValue v)).
Proof.
  intros Hattr. unfold MagicDict_getattr, MagicDict_setattr.
  rewrite eqb_d_false by assumption. split; [eauto|].
  destruct v as [|b|z|str]; eauto.
  destruct (contains str attr); eauto.
Qed.

Lemma plain_value_is_inert_witness :
  (exists e, MagicDict_getattr (OValue (VStr "cookie")) "ok" = Raised e) /\
  (exists e, MagicDict_setattr (OValue (VStr "cookie")) "ok" (OValue VNone)
             = (Raised e, OValue (VStr "cookie"))).
Proof.
  apply (plain_value_is_inert (VStr "cookie") "ok" (OValue VNone)).
  discriminate.
Defined.

End MagicDictSpec.

(** ** [Counter], [Gauge] and [MyServer] *)
Module ClosuresSpec.
Import MagicDict Closures.

Lemma Gauge_closures (name : string) (f : closure) :
  _d Gauge !! name = Some f -> f = inc \/ f = pcount \/ f = decr.
Proof.
  unfold Gauge. cbn [_d]. intros H.
  destruct (decide (name = "inc")) as [->|Hinc];
    [left; now simplify_map_eq|].
  destruct (decide (name = "count")) as [->|Hcount];
    [right; left; now simplify_map_eq|].
  destruct (decide (name = "decr")) as [->|Hdecr];
    [right; right; now simplify_map_eq|].
  now simplify_map_eq.
Qed.

Lemma Counter_closures (name : string) :
  _d Counter !! name =
  if String.eqb name "inc" then Some inc
  else if String.eqb name "count" then Some pcount
  else None.
Proof.
  unfold Counter. cbn [_d].
  destruct (String.eqb_spec name "inc") as [->|Hinc]; [now simplify_map_eq|].
  destruct (String.eqb_spec name "count") as [->|Hcount];
    now simplify_map_eq.
Qed.

Lemma Gauge_call (self : instance) (name : string) (args : list value) :
  _d self = _d Gauge -> (0 <= count self)%Z ->
  _d (snd (call self name args)) = _d Gauge /\
  (0 <= count (snd (call self name args)))%Z.
Proof.
  intros Hd Hcount. unfold call.
  destruct (String.eqb name "_d"); [now split|].
  destruct (_d self !! name) as [f|] eqn:Hf; [|now split].
  rewrite Hd in Hf.
  destruct (Gauge_closures name f Hf) as [->|[->| ->]];
    unfold inc, pcount, decr; destruct args; cbn [snd _d count];
    split; try assumption; try lia.
  destruct (Z.ltb_spec 0 (count self)); lia.
Qed.

(** X17: the count of a gauge is never negative: from a gauge whose count
    is not negative, in particular a new one, no sequence of calls, with
    whatever names and arguments, leads to a negative count. *)
Theorem gauge_is_never_negative (self : instance)
    (names : list (string * list value)) :
  _d self = _d Gauge ->
  (0 <= count self)%Z ->
  Forall (fun c : string * list value => startswith (fst c) "__" = false)
         names ->
  _d (calls self names) = _d Gauge /\ (0 <= count (calls self names))%Z.
Proof.
  intros Hd Hcount _. revert self Hd Hcount.
  induction names as [|[name args] rest IH]; intros self Hd Hcount;
    [now split|].
  cbn [calls].
  destruct (Gauge_call self name args Hd Hcount) as [Hd' Hcount'].
  now apply IH.
Qed.

Lemma gauge_is_never_negative_witness :
  (0 <= count (calls Gauge [("inc", []); ("decr", []); ("decr", []);
                            ("count", []); ("reset", [])]))%Z.
Proof.
  apply (gauge_is_never_negative Gauge
           [("inc", []); ("decr", []); ("decr", []); ("count", []);
            ("reset", [])]);
    [reflexivity|reflexivity|repeat constructor].
Defined.

Lemma Counter_call (self : instance) (name : string) (args : list value) :
  _d self = _d Counter ->
  _d (snd (call self name args)) = _d Counter /\
  count (snd (call self name args))
  = (count self
     + (if String.eqb name "inc" && (length args =? 0)%nat then 1 else 0))%Z.
Proof.
  intros Hd. unfold call.
  destruct (String.eqb_spec name "_d") as [->|Hname];
    [cbn; split; [assumption|lia]|].
  rewrite Hd, Counter_closures.
  destruct (String.eqb name "inc").
  - unfold inc. destruct args; cbn; split; try reflexivity; lia.
  - destruct (String.eqb name "count").
    + unfold pcount. destruct args; cbn; split; try reflexivity; lia.
    + cbn. split; [assumption|lia].
Qed.

(** X18: a counter counts the calls of [inc()] and nothing else: after any
    sequence of calls its count has grown by the number of calls named
    "inc" that were given no argument. *)
Theorem counter_counts_inc_calls (self : instance)
    (names : list (string * list value)) :
  _d self = _d Counter ->
  Forall (fun c : string * list value => startswith (fst c) "__" = false)
         names ->
  count (calls self names) = (count self + count_inc names)%Z.
Proof.
  intros Hd _. revert self Hd.
  induction names as [|[name args] rest IH]; intros self Hd;
    cbn [calls count_inc]; [lia|].
  destruct (Counter_call self name args Hd) as [Hd' Hcount'].
  rewrite IH, Hcount' by assumption. lia.
Qed.

Lemma counter_counts_inc_calls_witness :
  count (calls Counter [("inc", []); ("count", []); ("inc", [VInt 1]);
                        ("decr", []); ("inc", [])]) = 2%Z.
Proof.
  apply (counter_counts_inc_calls Counter
           [("inc", []); ("count", []); ("inc", [VInt 1]); ("decr", []);
            ("inc", [])]);
    [reflexivity|repeat constructor].
Defined.

(** X19: [MyServer] works on anything that has [inc] behind the name
    "inc", a counter or a gauge alike: it adds one to the count and returns
    [None]; on an object without that name it raises [KeyError] and
    changes nothing. *)
Theorem MyServer_counts_one_request (self : instance) :
  (_d self !! "inc" = Some inc ->
   MyServer self
   = (Returned VNone, {| _d := _d self; count := count self + 1 |})) /\
  (_d self !! "inc" = None ->
   MyServer self = (Raised (KeyError "inc"), self)).
Proof.
  unfold MyServer, call. cbn [String.eqb Ascii.eqb].
  split; intros ->; reflexivity.
Qed.

Lemma MyServer_counts_one_request_witness :
  MyServer Counter
  = (Returned VNone, {| _d := _d Counter; count := 1 |}) /\
  MyServer Gauge = (Returned VNone, {| _d := _d Gauge; count := 1 |}) /\
  MyServer {| _d := {[ "count" := pcount ]}; count := 0 |}
  = (Raised (KeyError "inc"), {| _d := {[ "count" := pcount ]}; count := 0 |}).
Proof.
  split; [|split].
  - apply (MyServer_counts_one_request Counter). reflexivity.
  - apply (MyServer_counts_one_request Gauge). reflexivity.
  - apply (MyServer_counts_one_request
             {| _d := {[ "count" := pcount ]}; count := 0 |}).
    reflexivity.
Defined.

Lemma call_closure (self : instance) (name : string) (f : closure)
    (args : list value) :
  name <> "_d" ->
  _d self !! name = Some f ->
  call self name args
  = (fst (f args (count self)),
     {| _d := _d self; count := snd (f args (count self)) |}).
Proof.
  intros Hname Hf. unfold call.
  apply String.eqb_neq in Hname. rewrite Hname, Hf.
  now destruct (f args (count self)).
Qed.

(** X20: on a gauge whose count is not negative, [inc()] followed by
    [decr()] leaves the count as it was; [decr()] at zero does nothing, so
    that [decr()] followed by [inc()] leaves one. *)
Theorem gauge_inc_then_decr (self : instance) :
  _d self = _d Gauge ->
  (0 <= count self)%Z ->
  calls self [("inc", []); ("decr", [])] = self /\
  (count self = 0%Z ->
   calls self [("decr", [])] = self /\
   count (calls self [("decr", []); ("inc", [])]) = 1%Z).
Proof.
  intros Hd Hcount. destruct self as [d c]. cbn [_d count] in *. subst d.
  assert (Hinc : forall n : Z,
             call {| _d := _d Gauge; count := n |} "inc" []
             = (Returned VNone, {| _d := _d Gauge; count := n + 1 |})).
  { intros n. now rewrite (call_closure _ "inc" inc). }
  assert (Hdecr : forall n : Z,
             call {| _d := _d Gauge; count := n |} "decr" []
             = (Returned VNone,
                {| _d := _d Gauge;
                   count := if (0 <? n)%Z then n - 1 else n |})).
  { intros n. now rewrite (call_closure _ "decr" decr). }
  cbn [calls]. rewrite !Hinc, !Hdecr. cbn [snd]. rewrite Hinc, Hdecr.
  cbn [snd count]. split.
  - destruct (Z.ltb_spec 0 (c + 1)); [|lia]. f_equal. lia.
  - intros ->. split; reflexivity.
Qed.

Lemma gauge_inc_then_decr_witness :
  calls Gauge [("inc", []); ("decr", [])] = Gauge.
Proof.
  apply (gauge_inc_then_decr Gauge); reflexivity.
Defined.

(** X21: a counter can only be asked for "inc" and "count": a call of any
    other name, "decr" for one, raises [KeyError] with that name and
    leaves the count alone. *)
Theorem counter_has_no_other_name (self : instance) (name : string)
    (args : list value) :
  _d self = _d Counter ->
  name <> "inc" -> name <> "count" -> name <> "_d" ->
  startswith name "__" = false ->
  call self name args = (Raised (KeyError name), self).
Proof.
  intros Hd Hinc Hcount Hname _. unfold call.
  rewrite Hd, Counter_closures.
  apply String.eqb_neq in Hinc, Hcount, Hname.
  now rewrite Hinc, Hcount, Hname.
Qed.

Lemma counter_has_no_other_name_witness :
  call Counter "decr" [] = (Raised (KeyError "decr"), Counter).
Proof.
  apply (counter_has_no_other_name Counter "decr" []);
    [reflexivity|discriminate|discriminate|discriminate|reflexivity].
Defined.

End ClosuresSpec.
